(** * canada-hsa-calculator: bracket rate engine and HSA comparison

    A shallow embedding of [calculator.ts] and of the tables of [types.ts],
    with the properties the specification states about them.

    Numbers.  A TypeScript [number] is modelled by [number] below: a finite
    value is an exact rational, and the three special values [Infinity],
    [-Infinity] and [NaN] follow the IEEE rules the code relies on (the
    [Infinity] threshold of the last bracket, a division by zero, [0 *
    Infinity]).  Finite arithmetic is exact: rounding, overflow and the sign
    of zero are not modelled (a zero divisor counts as [+0], which is the
    zero the subtractions and sums of this code produce).  The properties
    are stated so as not to rest on that exactness: they follow the
    comparisons and the structure of the computation, equate only values
    that no rounding touches, or leave an explicit tolerance. *)

From Stdlib Require Import QArith Qminmax Lqa List String Bool Lia.
Import ListNotations.
Open Scope string_scope.
Open Scope list_scope.
Open Scope Q_scope.

(** ** Numbers *)

Inductive number : Type :=
  | NaN
  | NegInfinity
  | Fin (q : Q)
  | Infinity.

Definition Qltb (a b : Q) : bool :=
  match a ?= b with Lt => true | _ => false end.

Module Num.

Definition neg (x : number) : number :=
  match x with
  | NaN => NaN
  | NegInfinity => Infinity
  | Fin a => Fin (- a)
  | Infinity => NegInfinity
  end.

Definition add (x y : number) : number :=
  match x, y with
  | NaN, _ | _, NaN => NaN
  | Infinity, NegInfinity | NegInfinity, Infinity => NaN
  | Infinity, _ | _, Infinity => Infinity
  | NegInfinity, _ | _, NegInfinity => NegInfinity
  | Fin a, Fin b => Fin (a + b)
  end.

Definition sub (x y : number) : number := add x (neg y).

(** The sign of a number that is not [NaN]. *)
Definition sign (x : number) : comparison :=
  match x with
  | NaN => Eq
  | NegInfinity => Lt
  | Fin a => a ?= 0
  | Infinity => Gt
  end.

Definition signed_infinity (s t : comparison) : number :=
  match s, t with
  | Eq, _ | _, Eq => NaN
  | Lt, Lt | Gt, Gt => Infinity
  | _, _ => NegInfinity
  end.

Definition mul (x y : number) : number :=
  match x, y with
  | NaN, _ | _, NaN => NaN
  | Fin a, Fin b => Fin (a * b)
  | _, _ => signed_infinity (sign x) (sign y)
  end.

(** [x / y].  A finite value divided by zero is an infinity of the sign of
    the dividend, and [0 / 0] is [NaN]. *)
Definition div (x y : number) : number :=
  match x, y with
  | NaN, _ | _, NaN => NaN
  | Fin a, Fin b =>
      if Qeq_bool b 0 then signed_infinity (a ?= 0) Gt else Fin (a / b)
  | Fin _, _ => Fin 0
  | _, Fin b =>
      signed_infinity (sign x) (if Qeq_bool b 0 then Gt else b ?= 0)
  | _, _ => NaN
  end.

(** [x <= y], [x < y] and [x == y]: false as soon as one side is [NaN]. *)
Definition leb (x y : number) : bool :=
  match x, y with
  | NaN, _ | _, NaN => false
  | NegInfinity, _ => true
  | _, Infinity => true
  | Fin a, Fin b => Qle_bool a b
  | _, _ => false
  end.

Definition ltb (x y : number) : bool :=
  match x, y with
  | NaN, _ | _, NaN => false
  | NegInfinity, NegInfinity => false
  | Infinity, _ => false
  | NegInfinity, _ => true
  | Fin a, Fin b => Qltb a b
  | Fin _, Infinity => true
  | Fin _, NegInfinity => false
  end.

Definition eqb (x y : number) : bool :=
  match x, y with
  | NegInfinity, NegInfinity | Infinity, Infinity => true
  | Fin a, Fin b => Qeq_bool a b
  | _, _ => false
  end.

Definition gtb (x y : number) : bool := ltb y x.

(** [Math.min] of two numbers. *)
Definition min (x y : number) : number :=
  match x, y with
  | NaN, _ | _, NaN => NaN
  | NegInfinity, _ | _, NegInfinity => NegInfinity
  | Infinity, _ => y
  | _, Infinity => x
  | Fin a, Fin b => if Qle_bool a b then x else y
  end.

Definition is_finite (x : number) : bool :=
  match x with Fin _ => true | _ => false end.

End Num.

Declare Scope num_scope.
Delimit Scope num_scope with num.
Bind Scope num_scope with number.
Infix "+" := Num.add : num_scope.
Infix "-" := Num.sub : num_scope.
Infix "*" := Num.mul : num_scope.
Infix "/" := Num.div : num_scope.
Infix "<=?" := Num.leb (at level 70) : num_scope.
Infix "<?" := Num.ltb (at level 70) : num_scope.
Infix ">?" := Num.gtb (at level 70) : num_scope.
Infix "==?" := Num.eqb (at level 70) : num_scope.

Notation "0" := (Fin 0) : num_scope.
Notation "1" := (Fin 1) : num_scope.

(** ** Data model ([types.ts]) *)

Record TaxBracket : Type := {
  threshold : number;  (* upper income threshold of the bracket *)
  rate : number        (* tax rate as a decimal *)
}.

Record Province : Type := {
  code : string;
  name : string;
  taxBrackets : list TaxBracket
}.

Record CalculatorInput : Type := {
  annualIncome : number;
  annualMedicalExpenses : number;
  province : string;
  adminFeeRate : number;
  annualPlanFee : number
}.

(** The result's own [annualPlanFee] field is [annualPlanFee'] here, the
    name being taken by the input's field. *)
Record CalculatorResult : Type := {
  adminFee : number;
  totalBusinessCost : number;
  requiredPersonalIncome : number;
  savings : number;
  marginalTaxRate : number;
  federalTaxRate : number;
  provincialTaxRate : number;
  annualPlanFee' : number;
  breakEven : number
}.

Definition bracket (t r : number) : TaxBracket :=
  {| threshold := t; rate := r |}.

(** 2025 federal brackets. *)
Definition FEDERAL_TAX_BRACKETS : list TaxBracket :=
  [ bracket (Fin 57375) (Fin 0.15);
    bracket (Fin 114750) (Fin 0.205);
    bracket (Fin 177882) (Fin 0.26);
    bracket (Fin 253414) (Fin 0.29);
    bracket Infinity (Fin 0.33) ].

(** 2025 provincial brackets: the object [PROVINCES], as the list of its
    keys and values in the order of the source. *)
Definition PROVINCES : list (string * Province) :=
  [ ("AB", {| code := "AB"; name := "Alberta"; taxBrackets :=
      [ bracket (Fin 151234) (Fin 0.1);
        bracket (Fin 181481) (Fin 0.12);
        bracket (Fin 241974) (Fin 0.13);
        bracket (Fin 362961) (Fin 0.14);
        bracket Infinity (Fin 0.15) ] |});
    ("BC", {| code := "BC"; name := "British Columbia"; taxBrackets :=
      [ bracket (Fin 49279) (Fin 0.0506);
        bracket (Fin 98560) (Fin 0.077);
        bracket (Fin 113158) (Fin 0.105);
        bracket (Fin 137407) (Fin 0.1229);
        bracket (Fin 186306) (Fin 0.147);
        bracket (Fin 259829) (Fin 0.168);
        bracket Infinity (Fin 0.205) ] |});
    ("MB", {| code := "MB"; name := "Manitoba"; taxBrackets :=
      [ bracket (Fin 47564) (Fin 0.108);
        bracket (Fin 101200) (Fin 0.1275);
        bracket Infinity (Fin 0.174) ] |});
    ("NB", {| code := "NB"; name := "New Brunswick"; taxBrackets :=
      [ bracket (Fin 51306) (Fin 0.094);
        bracket (Fin 102614) (Fin 0.14);
        bracket (Fin 190060) (Fin 0.16);
        bracket Infinity (Fin 0.195) ] |});
    ("NL", {| code := "NL"; name := "Newfoundland and Labrador";
      taxBrackets :=
      [ bracket (Fin 44192) (Fin 0.087);
        bracket (Fin 88382) (Fin 0.145);
        bracket (Fin 157792) (Fin 0.158);
        bracket (Fin 220910) (Fin 0.178);
        bracket (Fin 282214) (Fin 0.198);
        bracket (Fin 564429) (Fin 0.208);
        bracket (Fin 1128858) (Fin 0.213);
        bracket Infinity (Fin 0.218) ] |});
    ("NS", {| code := "NS"; name := "Nova Scotia"; taxBrackets :=
      [ bracket (Fin 30507) (Fin 0.0879);
        bracket (Fin 61015) (Fin 0.1495);
        bracket (Fin 95883) (Fin 0.1667);
        bracket (Fin 154650) (Fin 0.175);
        bracket Infinity (Fin 0.21) ] |});
    ("ON", {| code := "ON"; name := "Ontario"; taxBrackets :=
      [ bracket (Fin 52886) (Fin 0.0505);
        bracket (Fin 105775) (Fin 0.0915);
        bracket (Fin 150000) (Fin 0.1116);
        bracket (Fin 220000) (Fin 0.1216);
        bracket Infinity (Fin 0.1316) ] |});
    ("PE", {| code := "PE"; name := "Prince Edward Island"; taxBrackets :=
      [ bracket (Fin 33328) (Fin 0.095);
        bracket (Fin 64656) (Fin 0.1347);
        bracket (Fin 105000) (Fin 0.166);
        bracket (Fin 140000) (Fin 0.1762);
        bracket Infinity (Fin 0.19) ] |});
    ("SK", {| code := "SK"; name := "Saskatchewan"; taxBrackets :=
      [ bracket (Fin 53463) (Fin 0.105);
        bracket (Fin 152750) (Fin 0.125);
        bracket Infinity (Fin 0.145) ] |});
    ("YT", {| code := "YT"; name := "Yukon"; taxBrackets :=
      [ bracket (Fin 57375) (Fin 0.064);
        bracket (Fin 114750) (Fin 0.09);
        bracket (Fin 177882) (Fin 0.109);
        bracket (Fin 500000) (Fin 0.128);
        bracket Infinity (Fin 0.15) ] |}) ].

(** ** Outcomes: a call returns a value or throws *)

Inductive exception : Type :=
  | Error (message : string)
  | TypeError.

Inductive outcome (A : Type) : Type :=
  | Returns (a : A)
  | Throws (e : exception).
Arguments Returns {A} a.
Arguments Throws {A} e.

Definition bind {A B : Type} (m : outcome A) (f : A -> outcome B)
  : outcome B :=
  match m with
  | Returns a => f a
  | Throws e => Throws e
  end.

Notation "x <- m ;; k" := (bind m (fun x => k))
  (at level 61, m at next level, right associativity).

(** ** Bracket rate engine ([calculator.ts]) *)

Open Scope num_scope.

(** The [for] loop of [effectiveTaxRate], from the current values of
    [totalTax] and [previousThreshold] over the brackets not yet visited;
    its value is [totalTax] when the loop is left. *)
Fixpoint effectiveTaxRate_loop (income : number) (brackets : list TaxBracket)
    (totalTax previousThreshold : number) : number :=
  match brackets with
  | [] => totalTax
  | bracket :: brackets =>
      let taxableInBracket :=
        Num.min income (threshold bracket) - previousThreshold in
      let totalTax :=
        if taxableInBracket >? 0
        then totalTax + taxableInBracket * rate bracket
        else totalTax in
      if income <=? threshold bracket then totalTax
      else effectiveTaxRate_loop income brackets totalTax (threshold bracket)
  end.

Definition effectiveTaxRate (income : number) (brackets : list TaxBracket)
  : number :=
  if income <=? 0 then 0
  else effectiveTaxRate_loop income brackets 0 0 / income.

(** The [for] loop of [marginalRate]: the rate it returns from inside the
    loop, if it does. *)
Fixpoint marginalRate_loop (income : number) (brackets : list TaxBracket)
  : option number :=
  match brackets with
  | [] => None
  | bracket :: brackets =>
      if income <=? threshold bracket then Some (rate bracket)
      else marginalRate_loop income brackets
  end.

(** [brackets[brackets.length - 1]!.rate]: on an empty array the element is
    [undefined] and reading its [rate] throws a [TypeError]. *)
Definition last_rate (brackets : list TaxBracket) : outcome number :=
  match brackets with
  | [] => Throws TypeError
  | _ :: _ =>
      match nth_error brackets (List.length brackets - 1)%nat with
      | Some bracket => Returns (rate bracket)
      | None => Throws TypeError
      end
  end.

Definition marginalRate (income : number) (brackets : list TaxBracket)
  : outcome number :=
  match marginalRate_loop income brackets with
  | Some r => Returns r
  | None => last_rate brackets
  end.

(** [PROVINCES[provinceCode]]: the province under that key, if any. *)
Fixpoint lookup (provinceCode : string) (provinces : list (string * Province))
  : option Province :=
  match provinces with
  | [] => None
  | (k, p) :: provinces =>
      if String.eqb provinceCode k then Some p
      else lookup provinceCode provinces
  end.

(** The names every object inherits from [Object.prototype]. *)
Definition OBJECT_PROTOTYPE_KEYS : list string :=
  [ "constructor"; "hasOwnProperty"; "isPrototypeOf";
    "propertyIsEnumerable"; "toLocaleString"; "toString"; "valueOf";
    "__proto__"; "__defineGetter__"; "__defineSetter__";
    "__lookupGetter__"; "__lookupSetter__" ].

(** The value of [PROVINCES[provinceCode]]: the province under one of the
    object's own keys; else, for a name of [Object.prototype], the member
    inherited under it (a function or an object: truthy, and without
    [taxBrackets]); else [undefined]. *)
Inductive property : Type :=
  | Undefined
  | Own (province : Province)
  | Inherited.

Definition get_property (provinces : list (string * Province))
    (provinceCode : string) : property :=
  match lookup provinceCode provinces with
  | Some province => Own province
  | None =>
      if existsb (String.eqb provinceCode) OBJECT_PROTOTYPE_KEYS
      then Inherited
      else Undefined
  end.

(** ** Comparison engine

    [Engine] holds the functions of [calculator.ts] that read the two
    compiled-in constants, with the constants as parameters; the functions
    of the source are their instances at [FEDERAL_TAX_BRACKETS] and
    [PROVINCES]. *)

Module Engine.
Section Tables.

Variable federal : list TaxBracket.
Variable provinces : list (string * Province).

Definition effectiveFederalTaxRate (income : number) : number :=
  effectiveTaxRate income federal.

Definition marginalFederalTaxRate (income : number) : outcome number :=
  marginalRate income federal.

Definition calculate (input : CalculatorInput) : outcome CalculatorResult :=
  let annualIncome := annualIncome input in
  let annualMedicalExpenses := annualMedicalExpenses input in
  let provinceCode := province input in
  let adminFeeRate := adminFeeRate input in
  let annualPlanFee := annualPlanFee input in
  if annualIncome <=? 0
  then Throws (Error "annualIncome must be greater than 0")
  else if annualMedicalExpenses <? 0
  then Throws (Error "annualMedicalExpenses must be >= 0")
  else
    match get_property provinces provinceCode with
    | Undefined =>
        Throws (Error ("Invalid province code: " ++ provinceCode)%string)
    | Inherited =>
        (* [province.taxBrackets] is [undefined], and the [for ... of] of
           [marginalRate] over it throws *)
        federalTaxRate <- marginalFederalTaxRate annualIncome ;;
        Throws TypeError
    | Own province =>
        federalTaxRate <- marginalFederalTaxRate annualIncome ;;
        provincialTaxRate <-
          marginalRate annualIncome (taxBrackets province) ;;
        let marginalTaxRate := federalTaxRate + provincialTaxRate in
        let adminFee := annualMedicalExpenses * adminFeeRate in
        let totalBusinessCost :=
          annualMedicalExpenses + adminFee + annualPlanFee in
        let requiredPersonalIncome :=
          annualMedicalExpenses / (1 - marginalTaxRate) in
        let savings := requiredPersonalIncome - totalBusinessCost in
        let breakEven :=
          (annualPlanFee * (1 - marginalTaxRate)) / marginalTaxRate in
        Returns
          {| adminFee := adminFee;
             totalBusinessCost := totalBusinessCost;
             requiredPersonalIncome := requiredPersonalIncome;
             savings := savings;
             marginalTaxRate := marginalTaxRate;
             federalTaxRate := federalTaxRate;
             provincialTaxRate := provincialTaxRate;
             annualPlanFee' := annualPlanFee;
             breakEven := breakEven |}
    end.

End Tables.
End Engine.

Definition effectiveFederalTaxRate (income : number) : number :=
  Engine.effectiveFederalTaxRate FEDERAL_TAX_BRACKETS income.

Definition effectiveProvincialTaxRate (income : number) (province : Province)
  : number :=
  effectiveTaxRate income (taxBrackets province).

Definition marginalFederalTaxRate (income : number) : outcome number :=
  Engine.marginalFederalTaxRate FEDERAL_TAX_BRACKETS income.

Definition marginalProvincialTaxRate (income : number) (province : Province)
  : outcome number :=
  marginalRate income (taxBrackets province).

Definition calculate (input : CalculatorInput) : outcome CalculatorResult :=
  Engine.calculate FEDERAL_TAX_BRACKETS PROVINCES input.

(** ** The contracts in the specification's words *)

Module Spec.






(** The first bracket, in the order of the table, whose threshold is
    [>= income]. *)
Definition first_covering (income : number) (brackets : list TaxBracket)
  : option TaxBracket :=
  find (fun b => income <=? threshold b) brackets.

End Spec.

(** ** The table invariant of the data model *)

Fixpoint strictly_increasing (xs : list number) : bool :=
  match xs with
  | a :: (b :: _) as rest => (a <? b) && strictly_increasing rest
  | _ => true
  end.

Fixpoint non_decreasing (xs : list number) : bool :=
  match xs with
  | a :: (b :: _) as rest => (a <=? b) && non_decreasing rest
  | _ => true
  end.

Definition thresholds_increasing (table : list TaxBracket) : bool :=
  strictly_increasing (map threshold table).

Definition rates_non_decreasing (table : list TaxBracket) : bool :=
  non_decreasing (map rate table).

Definition last_unbounded (table : list TaxBracket) : bool :=
  match last (map threshold table) NaN with
  | Infinity => true
  | _ => false
  end.

(** Thresholds strictly increasing, rates non-decreasing, an unbounded last
    threshold (hence at least one entry). *)
Definition table_invariant (table : list TaxBracket) : bool :=
  thresholds_increasing table && rates_non_decreasing table
  && last_unbounded table.

(** Every rate is a finite number. *)
Definition finite_rates (table : list TaxBracket) : bool :=
  forallb (fun b => Num.is_finite (rate b)) table.

(** ** Command line ([cli.ts])

    [main] up to its call of [calculate].  The two built-in functions it
    applies to its arguments, [parseFloat] and [String.prototype.toUpperCase],
    are parameters.  The usage text and the report printed after the call
    are not modelled. *)

Module Cli.

(** [Object.keys(PROVINCES)]. *)
Definition VALID_PROVINCES : list string := map fst PROVINCES.

(** [xs.includes(x)]. *)
Definition includes (xs : list string) (x : string) : bool :=
  existsb (String.eqb x) xs.

(** [s.startsWith(start)]. *)
Definition startsWith (s start : string) : bool := String.prefix start s.

Definition isNaN (x : number) : bool :=
  match x with NaN => true | _ => false end.

(** A string is truthy unless it is empty. *)
Definition truthy (s : string) : bool := negb (String.eqb s "").

(** What a run of [main] comes to: [usage()] (the usage text, exit status
    0), lines on the error stream and exit status 1, or a call of
    [calculate]. *)
Inductive action : Type :=
  | Usage
  | Fails (errors : list string)
  | Calls (input : CalculatorInput) (jsonOutput : bool).

Section Builtins.

Variable parseFloat : string -> number.
Variable toUpperCase : string -> string.

(** The loop over the options, from the argument at index [i] on:
    [args[i + 1]] is [undefined], hence falsy, past the end. *)
Fixpoint parse_options (args : list string)
    (adminFeeRate annualPlanFee : number) (jsonOutput : bool)
  : number * number * bool :=
  match args with
  | [] => (adminFeeRate, annualPlanFee, jsonOutput)
  | arg :: rest =>
      match rest with
      | value :: rest' =>
          if String.eqb arg "--admin-fee" && truthy value
          then parse_options rest' (parseFloat value / Fin 100)
                 annualPlanFee jsonOutput
          else if String.eqb arg "--plan-fee" && truthy value
          then parse_options rest' adminFeeRate (parseFloat value) jsonOutput
          else if String.eqb arg "--json"
          then parse_options rest adminFeeRate annualPlanFee true
          else parse_options rest adminFeeRate annualPlanFee jsonOutput
      | [] =>
          if String.eqb arg "--json"
          then (adminFeeRate, annualPlanFee, true)
          else (adminFeeRate, annualPlanFee, jsonOutput)
      end
  end.

Definition main (args : list string) : action :=
  if Nat.eqb (List.length args) 0
     || includes args "--help" || includes args "-h"
  then Usage
  else
    let positional := filter (fun a => negb (startsWith a "--")) args in
    match positional with
    | p0 :: p1 :: p2 :: _ =>
        let income := parseFloat p0 in
        let expenses := parseFloat p1 in
        let provinceArg := toUpperCase p2 in
        if isNaN income || (income <=? 0)
        then Fails ["Error: income must be a positive number"]
        else if isNaN expenses || (expenses <? 0)
        then Fails ["Error: expenses must be a non-negative number"]
        else if negb (includes VALID_PROVINCES provinceArg)
        then Fails [("Error: invalid province '" ++ p2
                     ++ "'. Must be one of: "
                     ++ String.concat ", " VALID_PROVINCES)%string]
        else
          let '(adminFeeRate, annualPlanFee, jsonOutput) :=
            parse_options args (Fin 0.08) (Fin 120) false in
          Calls {| annualIncome := income;
                   annualMedicalExpenses := expenses;
                   province := provinceArg;
                   adminFeeRate := adminFeeRate;
                   annualPlanFee := annualPlanFee |}
                jsonOutput
    | _ =>
        Fails ["Error: requires 3 arguments: <income> <expenses> <province>";
               "Run 'hsa-calc --help' for usage."]
    end.

End Builtins.

(** A stand-in for [parseFloat] on the numerals of the examples. *)
Definition sample_parseFloat (s : string) : number :=
  if String.eqb s "100000" then Fin 100000
  else if String.eqb s "3000" then Fin 3000
  else if String.eqb s "5" then Fin 5
  else NaN.

Definition sample_toUpperCase (s : string) : string :=
  if String.eqb s "on" then "ON" else s.

End Cli.

(** ** Auxiliary definitions and the examples the properties use *)

(** The record [calculate] builds once the three checks have passed and the
    two marginal rates are known. *)
Definition comparison_of (input : CalculatorInput)
    (federalTaxRate provincialTaxRate : number) : CalculatorResult :=
  let marginalTaxRate := federalTaxRate + provincialTaxRate in
  let expenses := annualMedicalExpenses input in
  {| adminFee := expenses * adminFeeRate input;
     totalBusinessCost :=
       expenses + expenses * adminFeeRate input + annualPlanFee input;
     requiredPersonalIncome := expenses / (1 - marginalTaxRate);
     savings :=
       expenses / (1 - marginalTaxRate)
       - (expenses + expenses * adminFeeRate input + annualPlanFee input);
     marginalTaxRate := marginalTaxRate;
     federalTaxRate := federalTaxRate;
     provincialTaxRate := provincialTaxRate;
     annualPlanFee' := annualPlanFee input;
     breakEven :=
       (annualPlanFee input * (1 - marginalTaxRate)) / marginalTaxRate |}.

Definition ontario_example : CalculatorInput :=
  {| annualIncome := Fin 100000;
     annualMedicalExpenses := Fin 3000;
     province := "ON";
     adminFeeRate := Fin 0.08;
     annualPlanFee := Fin 120 |}.




Definition regressive_table : list TaxBracket :=
  [bracket (Fin 10) (Fin 0.5); bracket Infinity (Fin 0.25)].

(** The first threshold is not below 0, where the walk starts. *)
Definition starts_at_zero (table : list TaxBracket) : bool :=
  match table with
  | b :: _ => 0 <=? threshold b
  | [] => false
  end.



(** A combined rate strictly between 0 and 1. *)
Definition proper_rate (federalTaxRate provincialTaxRate : number) : bool :=
  (0 <? federalTaxRate + provincialTaxRate)
  && (federalTaxRate + provincialTaxRate <? 1).

Definition all_rates_proper (federal : list TaxBracket)
    (provinces : list (string * Province)) : bool :=
  forallb
    (fun rf =>
       forallb
         (fun p => forallb (proper_rate rf) (map rate (taxBrackets p)))
         (map snd provinces))
    (map rate federal).




Definition ontario : Province :=
  {| code := "ON"; name := "Ontario"; taxBrackets :=
     [ bracket (Fin 52886) (Fin 0.0505);
       bracket (Fin 105775) (Fin 0.0915);
       bracket (Fin 150000) (Fin 0.1116);
       bracket (Fin 220000) (Fin 0.1216);
       bracket Infinity (Fin 0.1316) ] |}.

(** No argument is one of the three options. *)
Definition no_options (args : list string) : bool :=
  forallb
    (fun a =>
       negb (String.eqb a "--admin-fee") && negb (String.eqb a "--plan-fee")
       && negb (String.eqb a "--json"))
    args.

(** * Properties *)

(** ** Facts on numbers *)

Lemma Qltb_iff (a b : Q) : Qltb a b = true <-> (a < b)%Q.
Proof.
  unfold Qltb. rewrite Qlt_alt. destruct (a ?= b)%Q; intuition discriminate.
Qed.

Lemma Qltb_false_iff (a b : Q) : Qltb a b = false <-> (b <= a)%Q.
Proof.
  rewrite <- Bool.not_true_iff_false, Qltb_iff. split.
  - apply Qnot_lt_le.
  - apply Qle_not_lt.
Qed.

Lemma Qle_bool_false_iff (a b : Q) : Qle_bool a b = false <-> (b < a)%Q.
Proof.
  rewrite <- Bool.not_true_iff_false, Qle_bool_iff. split.
  - apply Qnot_le_lt.
  - apply Qlt_not_le.
Qed.

Lemma Qeq_bool_false_iff (a b : Q) : Qeq_bool a b = false <-> ~ (a == b)%Q.
Proof.
  rewrite <- Bool.not_true_iff_false, Qeq_bool_iff. tauto.
Qed.

Lemma Qmult_comm_eq (a b : Q) : (a * b)%Q = (b * a)%Q.
Proof.
  unfold Qmult. f_equal; [apply Z.mul_comm | apply Pos.mul_comm].
Qed.

Lemma Qcompare_sub_zero (a b : Q) : (a + - b ?= 0)%Q = (a ?= b)%Q.
Proof.
  destruct (a ?= b)%Q eqn:E.
  - rewrite <- Qeq_alt in *. lra.
  - rewrite <- Qlt_alt in *. lra.
  - rewrite <- Qgt_alt in *. lra.
Qed.

Module NumFacts.

Lemma mul_comm (x y : number) : x * y = y * x.
Proof.
  destruct x as [| |a|], y as [| |b|]; simpl; try reflexivity;
    try (f_equal; apply Qmult_comm_eq);
    match goal with |- context [(?c ?= 0)%Q] => destruct (c ?= 0)%Q end;
    reflexivity.
Qed.

(** [x - y > 0] exactly when [y < x]. *)
Lemma sub_pos (x y : number) : (x - y >? 0) = (y <? x).
Proof.
  destruct x as [| |a|], y as [| |b|]; try reflexivity.
  unfold Num.gtb, Num.sub; simpl. unfold Qltb.
  rewrite <- (Qcompare_antisym (a + - b) 0), Qcompare_sub_zero.
  rewrite (Qcompare_antisym a b). reflexivity.
Qed.

Lemma leb_refl_fin (a : Q) : (Fin a <=? Fin a) = true.
Proof. simpl. apply Qle_bool_iff. apply Qle_refl. Qed.

Lemma leb_trans (x y z : number) :
  (x <=? y) = true -> (y <=? z) = true -> (x <=? z) = true.
Proof.
  destruct x as [| |a|], y as [| |b|], z as [| |c|]; simpl;
    try reflexivity; try discriminate.
  rewrite !Qle_bool_iff. apply Qle_trans.
Qed.

End NumFacts.

(** ** The effective rate *)




(** ** The marginal rate *)

Lemma marginalRate_loop_find (income : number) (brackets : list TaxBracket) :
  marginalRate_loop income brackets
  = option_map rate (Spec.first_covering income brackets).
Proof.
  unfold Spec.first_covering.
  induction brackets as [|b rest IH]; [reflexivity|].
  simpl. now destruct (income <=? threshold b).
Qed.

Lemma marginalRate_loop_app (income : number) (pre post : list TaxBracket) :
  Forall (fun c => (income <=? threshold c) = false) pre ->
  marginalRate_loop income (pre ++ post) = marginalRate_loop income post.
Proof.
  induction 1 as [|c pre Hc _ IH]; [reflexivity|].
  simpl. now rewrite Hc.
Qed.

Lemma marginalRate_loop_none (income : number) (brackets : list TaxBracket) :
  Forall (fun c => (income <=? threshold c) = false) brackets ->
  marginalRate_loop income brackets = None.
Proof.
  intros H. rewrite <- (app_nil_r brackets).
  now rewrite marginalRate_loop_app.
Qed.

Lemma last_rate_last (brackets : list TaxBracket) (d : TaxBracket) :
  brackets <> [] -> last_rate brackets = Returns (rate (last brackets d)).
Proof.
  intros Hne. destruct brackets as [|b rest]; [contradiction|].
  unfold last_rate.
  destruct (exists_last Hne) as (front & z & ->).
  rewrite last_last, length_app, nth_error_app2 by (simpl; lia).
  simpl. replace (_ - _)%nat with 0%nat by lia. reflexivity.
Qed.

(** C2.  On a non-empty table [marginalRate] returns the rate of the first
    bracket, in the order of the table, whose threshold is [>= income], and
    the rate of the last bracket when no bracket has such a threshold.  For
    the table [[{T, r1}, {Infinity, r2}]] it returns [r1] at the income [T]
    and [r2] at every income [T + epsilon] with [epsilon > 0]. *)
Theorem marginalRate_contract :
  (forall (income : number) (brackets pre post : list TaxBracket)
          (b : TaxBracket),
      brackets = pre ++ b :: post ->
      Forall (fun c => (income <=? threshold c) = false) pre ->
      (income <=? threshold b) = true ->
      Spec.first_covering income brackets = Some b
      /\ marginalRate income brackets = Returns (rate b))
  /\ (forall (income : number) (brackets : list TaxBracket) (d : TaxBracket),
      brackets <> [] ->
      Forall (fun c => (income <=? threshold c) = false) brackets ->
      Spec.first_covering income brackets = None
      /\ marginalRate income brackets = Returns (rate (last brackets d)))
  /\ (forall (T : Q) (r1 r2 : number),
      let table := [bracket (Fin T) r1; bracket Infinity r2] in
      marginalRate (Fin T) table = Returns r1
      /\ forall epsilon : Q, (0 < epsilon)%Q ->
         marginalRate (Fin (T + epsilon)) table = Returns r2).
Proof.
  split; [|split].
  - intros income brackets pre post b -> Hpre Hb.
    assert (Hloop : marginalRate_loop income (pre ++ b :: post)
                    = Some (rate b)).
    { rewrite marginalRate_loop_app by assumption. simpl. now rewrite Hb. }
    split.
    + unfold Spec.first_covering. clear Hloop.
      induction Hpre as [|c pre Hc _ IH]; simpl.
      * now rewrite Hb.
      * now rewrite Hc.
    + unfold marginalRate. now rewrite Hloop.
  - intros income brackets d Hne Hall.
    pose proof (marginalRate_loop_none _ _ Hall) as Hloop.
    split.
    + rewrite marginalRate_loop_find in Hloop.
      destruct (Spec.first_covering income brackets); [discriminate|].
      reflexivity.
    + unfold marginalRate. rewrite Hloop. now apply last_rate_last.
  - intros T r1 r2 table. split.
    + unfold marginalRate, table. cbn [marginalRate_loop threshold bracket].
      now rewrite NumFacts.leb_refl_fin.
    + intros epsilon Heps.
      unfold marginalRate, table.
      cbn [marginalRate_loop threshold bracket rate].
      assert (H : (Fin (T + epsilon) <=? Fin T) = false).
      { simpl. apply Qle_bool_false_iff. lra. }
      rewrite H. reflexivity.
Qed.

Lemma marginalRate_contract_witness :
  (Spec.first_covering (Fin 100000) FEDERAL_TAX_BRACKETS
   = Some (bracket (Fin 114750) (Fin 0.205))
   /\ marginalRate (Fin 100000) FEDERAL_TAX_BRACKETS = Returns (Fin 0.205))
  /\ (Spec.first_covering (Fin 300000)
        [bracket (Fin 57375) (Fin 0.15); bracket (Fin 114750) (Fin 0.205)]
      = None
      /\ marginalRate (Fin 300000)
           [bracket (Fin 57375) (Fin 0.15); bracket (Fin 114750) (Fin 0.205)]
         = Returns (Fin 0.205))
  /\ marginalRate (Fin (57375 + 0.01))
       [bracket (Fin 57375) (Fin 0.15); bracket Infinity (Fin 0.33)]
     = Returns (Fin 0.33).
Proof.
  destruct marginalRate_contract as (Hfirst & Hlast & Hedge).
  split; [|split].
  - apply (Hfirst (Fin 100000) FEDERAL_TAX_BRACKETS
             [bracket (Fin 57375) (Fin 0.15)]
             [bracket (Fin 177882) (Fin 0.26);
              bracket (Fin 253414) (Fin 0.29);
              bracket Infinity (Fin 0.33)]).
    + reflexivity.
    + repeat constructor.
    + reflexivity.
  - apply (Hlast (Fin 300000)
             [bracket (Fin 57375) (Fin 0.15);
              bracket (Fin 114750) (Fin 0.205)]
             (bracket 0 0)).
    + discriminate.
    + repeat constructor.
  - apply (Hedge 57375%Q (Fin 0.15) (Fin 0.33)). reflexivity.
Defined.

Lemma marginalRate_returns (income : number) (brackets : list TaxBracket) :
  brackets <> [] -> exists r, marginalRate income brackets = Returns r.
Proof.
  intros Hne. unfold marginalRate.
  destruct (marginalRate_loop income brackets) as [r|]; [now exists r|].
  rewrite (last_rate_last brackets (bracket 0 0) Hne). eauto.
Qed.

(** [marginalRate] returns one of the rates of the table. *)
Lemma marginalRate_in (income r : number) (brackets : list TaxBracket) :
  marginalRate income brackets = Returns r -> In r (map rate brackets).
Proof.
  unfold marginalRate.
  destruct (marginalRate_loop income brackets) as [r'|] eqn:Hloop.
  - intros [= <-]. induction brackets as [|b rest IH]; [discriminate|].
    simpl in Hloop. destruct (income <=? threshold b).
    + injection Hloop as <-. now left.
    + right. now apply IH.
  - destruct brackets as [|b rest]; [discriminate|].
    unfold last_rate.
    destruct (nth_error _ _) as [c|] eqn:Hnth; [|discriminate].
    intros [= <-]. apply in_map. eapply nth_error_In, Hnth.
Qed.

(** ** The comparison *)

Lemma get_property_own (provinces : list (string * Province)) (k : string)
    (p : Province) :
  lookup k provinces = Some p -> get_property provinces k = Own p.
Proof. unfold get_property. now intros ->. Qed.

Section EngineFacts.

Variable federal : list TaxBracket.
Variable provinces : list (string * Province).

Lemma calculate_returns (input : CalculatorInput) (p : Province)
    (rf rp : number) :
  (annualIncome input <=? 0) = false ->
  (annualMedicalExpenses input <? 0) = false ->
  lookup (province input) provinces = Some p ->
  marginalRate (annualIncome input) federal = Returns rf ->
  marginalRate (annualIncome input) (taxBrackets p) = Returns rp ->
  Engine.calculate federal provinces input
  = Returns (comparison_of input rf rp).
Proof.
  intros Hincome Hexpense Hlookup Hf Hp.
  unfold Engine.calculate, Engine.marginalFederalTaxRate.
  rewrite Hincome, Hexpense, (get_property_own _ _ _ Hlookup), Hf.
  cbn [bind]. rewrite Hp. reflexivity.
Qed.

Lemma calculate_total (input : CalculatorInput) (p : Province) :
  federal <> [] -> taxBrackets p <> [] ->
  (annualIncome input <=? 0) = false ->
  (annualMedicalExpenses input <? 0) = false ->
  lookup (province input) provinces = Some p ->
  exists rf rp,
    marginalRate (annualIncome input) federal = Returns rf
    /\ marginalRate (annualIncome input) (taxBrackets p) = Returns rp
    /\ Engine.calculate federal provinces input
       = Returns (comparison_of input rf rp).
Proof.
  intros Hfed Hprov Hincome Hexpense Hlookup.
  destruct (marginalRate_returns (annualIncome input) federal Hfed)
    as [rf Hf].
  destruct (marginalRate_returns (annualIncome input) (taxBrackets p) Hprov)
    as [rp Hp].
  exists rf, rp. repeat split; try assumption.
  now apply (calculate_returns input p).
Qed.

End EngineFacts.

Lemma lookup_in (k : string) (provinces : list (string * Province))
    (p : Province) :
  lookup k provinces = Some p -> In p (map snd provinces).
Proof.
  induction provinces as [|[k' p'] rest IH]; [discriminate|].
  simpl. destruct (String.eqb k k').
  - intros [= <-]. now left.
  - intros H. right. now apply IH.
Qed.

Lemma PROVINCES_nonempty (k : string) (p : Province) :
  lookup k PROVINCES = Some p -> taxBrackets p <> [].
Proof.
  intros H. apply lookup_in in H.
  assert (Hall : Forall (fun q => taxBrackets q <> []) (map snd PROVINCES))
    by (repeat constructor; discriminate).
  rewrite Forall_forall in Hall. now apply Hall.
Qed.

(** C3.  With the compiled-in federal and Ontario tables, [calculate] on an
    income of 100000, expenses of 3000, province ON, an admin fee rate of
    0.08 and a plan fee of 120 returns a federal rate of 0.205, a provincial
    rate of 0.0915, a marginal rate of 0.2965, an admin fee of 240, a total
    business cost of 3360, a required personal income that rounds to 4264.39
    and savings that round to 904.39. *)
Theorem calculate_ontario_example :
  exists r : CalculatorResult,
    calculate ontario_example = Returns r
    /\ (federalTaxRate r ==? Fin 0.205) = true
    /\ (provincialTaxRate r ==? Fin 0.0915) = true
    /\ (marginalTaxRate r ==? Fin 0.2965) = true
    /\ (adminFee r ==? Fin 240) = true
    /\ (totalBusinessCost r ==? Fin 3360) = true
    /\ (Fin 4264.385 <=? requiredPersonalIncome r) = true
    /\ (requiredPersonalIncome r <? Fin 4264.395) = true
    /\ (Fin 904.385 <=? savings r) = true
    /\ (savings r <? Fin 904.395) = true.
Proof.
  eexists. split; [vm_compute; reflexivity|].
  repeat split; vm_compute; reflexivity.
Qed.

Lemma FEDERAL_nonempty : FEDERAL_TAX_BRACKETS <> [].
Proof. discriminate. Qed.





(** ** Monotonicity of the marginal rate *)

Lemma marginalRate_skip (income : number) (b : TaxBracket)
    (rest : list TaxBracket) :
  (income <=? threshold b) = false -> rest <> [] ->
  marginalRate income (b :: rest) = marginalRate income rest.
Proof.
  intros Hb Hne. unfold marginalRate. cbn [marginalRate_loop]. rewrite Hb.
  destruct (marginalRate_loop income rest); [reflexivity|].
  now rewrite (last_rate_last (b :: rest) b), (last_rate_last rest b)
    by (assumption || discriminate); destruct rest.
Qed.

Lemma marginalRate_single (income : number) (b : TaxBracket) :
  marginalRate income [b] = Returns (rate b).
Proof.
  unfold marginalRate. simpl. now destruct (income <=? threshold b).
Qed.

Lemma finite_leb_refl (x : number) :
  Num.is_finite x = true -> (x <=? x) = true.
Proof.
  destruct x; try discriminate. intros _. apply NumFacts.leb_refl_fin.
Qed.

(** In a non-decreasing list of finite numbers the head is below every
    element. *)
Lemma non_decreasing_head (x : number) (xs : list number) :
  non_decreasing (x :: xs) = true ->
  forallb Num.is_finite (x :: xs) = true ->
  Forall (fun y => (x <=? y) = true) (x :: xs).
Proof.
  revert x. induction xs as [|y ys IH]; intros x Hsorted Hfin.
  - constructor; [|constructor].
    apply finite_leb_refl. simpl in Hfin. now destruct (Num.is_finite x).
  - cbn [non_decreasing] in Hsorted.
    apply andb_true_iff in Hsorted as [Hxy Hsorted].
    cbn [forallb] in Hfin. apply andb_true_iff in Hfin as [Hx Hfin].
    constructor; [now apply finite_leb_refl|].
    specialize (IH y Hsorted Hfin).
    eapply Forall_impl; [|exact IH].
    intros z Hz. eapply NumFacts.leb_trans; eassumption.
Qed.

Lemma finite_rates_map (table : list TaxBracket) :
  finite_rates table = forallb Num.is_finite (map rate table).
Proof.
  unfold finite_rates. induction table as [|b rest IH]; [reflexivity|].
  simpl. now rewrite IH.
Qed.

Lemma marginalRate_monotone_aux (a b : number) :
  (a <=? b) = true ->
  forall table : list TaxBracket,
    table <> [] ->
    rates_non_decreasing table = true ->
    finite_rates table = true ->
    exists ra rb : number,
      marginalRate a table = Returns ra
      /\ marginalRate b table = Returns rb
      /\ (ra <=? rb) = true.
Proof.
  intros Hab table. unfold rates_non_decreasing. rewrite finite_rates_map.
  induction table as [|c rest IH]; intros Hne Hsorted Hfin; [contradiction|].
  destruct (a <=? threshold c) eqn:Ha.
  - destruct (marginalRate_returns b (c :: rest) Hne) as [rb Hrb].
    exists (rate c), rb. repeat split; [|assumption|].
    + unfold marginalRate. cbn [marginalRate_loop]. now rewrite Ha.
    + pose proof (non_decreasing_head _ _ Hsorted Hfin) as Hhead.
      rewrite Forall_forall in Hhead. apply Hhead.
      now apply marginalRate_in in Hrb.
  - assert (Hb : (b <=? threshold c) = false).
    { destruct (b <=? threshold c) eqn:Hb; [|reflexivity].
      now rewrite (NumFacts.leb_trans _ _ _ Hab Hb) in Ha. }
    destruct rest as [|d rest].
    + exists (rate c), (rate c). rewrite !marginalRate_single.
      repeat split. apply finite_leb_refl.
      simpl in Hfin. now destruct (Num.is_finite (rate c)).
    + rewrite (marginalRate_skip a c (d :: rest) Ha) by discriminate.
      rewrite (marginalRate_skip b c (d :: rest) Hb) by discriminate.
      apply IH; [discriminate| |].
      * cbn [map non_decreasing] in Hsorted |- *.
        now apply andb_true_iff in Hsorted as [_ Hsorted].
      * cbn [map forallb] in Hfin |- *.
        now apply andb_true_iff in Hfin as [_ Hfin].
Qed.

(** C6, as stated, fails: the thresholds of [regressive_table] increase
    strictly, yet its marginal rate drops from 0.5 at the income 5 to 0.25
    at the income 20. *)
Lemma marginalRate_not_monotone :
  thresholds_increasing regressive_table = true
  /\ (Fin 5 <=? Fin 20) = true
  /\ marginalRate (Fin 5) regressive_table = Returns (Fin 0.5)
  /\ marginalRate (Fin 20) regressive_table = Returns (Fin 0.25)
  /\ (Fin 0.5 <=? Fin 0.25) = false.
Proof. repeat split. Qed.

(** C6, amended.  For any bracket table with strictly increasing thresholds
    and non-decreasing (finite) rates, [marginalRate] is a non-decreasing
    function of the income: for all incomes [a <= b] both calls return and
    the rate at [a] is [<=] the rate at [b]. *)
Theorem marginalRate_monotone (table : list TaxBracket) (a b : number) :
  table <> [] ->
  thresholds_increasing table = true ->
  rates_non_decreasing table = true ->
  finite_rates table = true ->
  (a <=? b) = true ->
  exists ra rb : number,
    marginalRate a table = Returns ra
    /\ marginalRate b table = Returns rb
    /\ (ra <=? rb) = true.
Proof.
  intros Hne _ Hsorted Hfin Hab.
  now apply marginalRate_monotone_aux.
Qed.

Lemma marginalRate_monotone_witness :
  exists ra rb : number,
    marginalRate (Fin 40000) FEDERAL_TAX_BRACKETS = Returns ra
    /\ marginalRate (Fin 100000) FEDERAL_TAX_BRACKETS = Returns rb
    /\ (ra <=? rb) = true.
Proof.
  apply (marginalRate_monotone FEDERAL_TAX_BRACKETS (Fin 40000) (Fin 100000));
    solve [discriminate | reflexivity].
Defined.

(** ** The effective rate is at most the marginal rate *)



Lemma effectiveTaxRate_loop_cons (income : number) (b : TaxBracket)
    (rest : list TaxBracket) (totalTax previousThreshold : number) :
  effectiveTaxRate_loop income (b :: rest) totalTax previousThreshold
  = if income <=? threshold b
    then if previousThreshold <? Num.min income (threshold b)
         then totalTax
              + (Num.min income (threshold b) - previousThreshold) * rate b
         else totalTax
    else effectiveTaxRate_loop income rest
           (if previousThreshold <? Num.min income (threshold b)
            then totalTax
                 + (Num.min income (threshold b) - previousThreshold) * rate b
            else totalTax)
           (threshold b).
Proof.
  cbn [effectiveTaxRate_loop]. rewrite NumFacts.sub_pos.
  now destruct (income <=? threshold b).
Qed.

Section Progressive.

Variable income : Q.


End Progressive.





(** ** The compiled-in tables *)

Lemma positive_not_leb (x : number) : (x >? 0) = true -> (x <=? 0) = false.
Proof.
  destruct x as [| |a|]; try discriminate; [|reflexivity].
  unfold Num.gtb. simpl. rewrite Qltb_iff, Qle_bool_false_iff. tauto.
Qed.

Lemma non_negative_not_ltb (x : number) :
  (0 <=? x) = true -> (x <? 0) = false.
Proof.
  destruct x as [| |a|]; try discriminate; [|reflexivity].
  simpl. rewrite Qle_bool_iff, Qltb_false_iff. tauto.
Qed.

Lemma compiled_rates_proper (income : number) (k : string) (p : Province)
    (rf rp : number) :
  lookup k PROVINCES = Some p ->
  marginalRate income FEDERAL_TAX_BRACKETS = Returns rf ->
  marginalRate income (taxBrackets p) = Returns rp ->
  exists m : Q, rf + rp = Fin m /\ (0 < m)%Q /\ (m < 1)%Q.
Proof.
  intros Hp Hrf Hrp.
  apply lookup_in in Hp. apply marginalRate_in in Hrf, Hrp.
  assert (Hall : all_rates_proper FEDERAL_TAX_BRACKETS PROVINCES = true)
    by (vm_compute; reflexivity).
  unfold all_rates_proper in Hall.
  rewrite forallb_forall in Hall. specialize (Hall rf Hrf).
  rewrite forallb_forall in Hall. specialize (Hall p Hp).
  rewrite forallb_forall in Hall. specialize (Hall rp Hrp).
  unfold proper_rate in Hall. apply andb_true_iff in Hall as [Hlo Hhi].
  destruct (rf + rp) as [| |m|]; try discriminate.
  exists m. simpl in Hlo, Hhi. rewrite Qltb_iff in Hlo, Hhi. auto.
Qed.

(** The result on finite expenses and fees, for a combined rate that is
    neither 0 nor 1. *)
Lemma comparison_of_finite (income : number) (k : string)
    (expenses fee plan m : Q) (rf rp : number) :
  rf + rp = Fin m -> ~ (m == 0)%Q -> ~ (m == 1)%Q ->
  comparison_of
    {| annualIncome := income; annualMedicalExpenses := Fin expenses;
       province := k; adminFeeRate := Fin fee; annualPlanFee := Fin plan |}
    rf rp
  = {| adminFee := Fin (expenses * fee);
       totalBusinessCost := Fin (expenses + expenses * fee + plan);
       requiredPersonalIncome := Fin (expenses / (1 + - m));
       savings :=
         Fin (expenses / (1 + - m) + - (expenses + expenses * fee + plan));
       marginalTaxRate := Fin m;
       federalTaxRate := rf;
       provincialTaxRate := rp;
       annualPlanFee' := Fin plan;
       breakEven := Fin (plan * (1 + - m) / m) |}.
Proof.
  intros Hm H0 H1. unfold comparison_of.
  cbn [annualMedicalExpenses adminFeeRate annualPlanFee]. rewrite Hm.
  assert (Hz : Qeq_bool (1 + - m) 0 = false)
    by (apply Qeq_bool_false_iff; lra).
  assert (Hz' : Qeq_bool m 0 = false) by now apply Qeq_bool_false_iff.
  unfold Num.sub. simpl. now rewrite Hz, Hz'.
Qed.

Lemma compiled_calculate (input : CalculatorInput) (p : Province) :
  (annualIncome input >? 0) = true ->
  (annualMedicalExpenses input <? 0) = false ->
  lookup (province input) PROVINCES = Some p ->
  exists (rf rp : number) (m : Q),
    calculate input = Returns (comparison_of input rf rp)
    /\ rf + rp = Fin m /\ (0 < m)%Q /\ (m < 1)%Q.
Proof.
  intros Hincome Hexpense Hp. apply positive_not_leb in Hincome.
  destruct (calculate_total FEDERAL_TAX_BRACKETS PROVINCES input p
              FEDERAL_nonempty (PROVINCES_nonempty _ _ Hp)
              Hincome Hexpense Hp)
    as (rf & rp & Hrf & Hrp & Hr).
  destruct (compiled_rates_proper _ _ _ _ _ Hp Hrf Hrp) as (m & Hm & Hlo & Hhi).
  exists rf, rp, m. auto.
Qed.




(** ** Zero expenses *)

(** C7, as stated, fails: the admin fee rate is not validated, and with an
    admin fee rate that is [NaN] the admin fee on expenses of 0 is
    [0 * NaN], which is [NaN] and not equal to 0. *)
Lemma zero_expenses_nan_fee :
  exists r : CalculatorResult,
    calculate
      {| annualIncome := Fin 100000; annualMedicalExpenses := 0;
         province := "ON"; adminFeeRate := NaN; annualPlanFee := Fin 120 |}
    = Returns r
    /\ adminFee r = NaN
    /\ (adminFee r ==? 0) = false
    /\ (totalBusinessCost r ==? Fin 120) = false.
Proof.
  eexists. split; [vm_compute; reflexivity|].
  repeat split.
Qed.

(** C7, amended.  For every income [> 0], every registered province, every
    finite admin fee rate and every plan fee that is not [NaN],
    [calculate] on expenses equal to 0 returns an admin fee equal to 0, a
    total business cost equal to the plan fee, a required personal income
    equal to 0 and savings equal to minus the plan fee. *)
Theorem calculate_zero_expenses (income : number) (k : string) (p : Province)
    (expenses fee : Q) (plan : number) :
  (income >? 0) = true ->
  (expenses == 0)%Q ->
  Cli.isNaN plan = false ->
  lookup k PROVINCES = Some p ->
  exists r : CalculatorResult,
    calculate
      {| annualIncome := income; annualMedicalExpenses := Fin expenses;
         province := k; adminFeeRate := Fin fee; annualPlanFee := plan |}
    = Returns r
    /\ (adminFee r ==? 0) = true
    /\ (totalBusinessCost r ==? plan) = true
    /\ (requiredPersonalIncome r ==? 0) = true
    /\ (savings r ==? Num.neg plan) = true.
Proof.
  intros Hincome Hzero Hplan Hp.
  destruct (compiled_calculate
              {| annualIncome := income;
                 annualMedicalExpenses := Fin expenses;
                 province := k; adminFeeRate := Fin fee;
                 annualPlanFee := plan |} p)
    as (rf & rp & m & Hr & Hm & Hlo & Hhi); try assumption.
  { simpl. apply Qltb_false_iff. lra. }
  eexists. split; [exact Hr|].
  unfold comparison_of.
  cbn [adminFee totalBusinessCost requiredPersonalIncome savings
       annualMedicalExpenses adminFeeRate annualPlanFee].
  rewrite Hm.
  assert (Hz : Qeq_bool (1 + - m) 0 = false)
    by (apply Qeq_bool_false_iff; lra).
  assert (Hreq : (expenses / (1 + - m) == 0)%Q)
    by (rewrite Hzero; field; lra).
  destruct plan as [| |plan|]; try discriminate;
    unfold Num.sub; simpl; rewrite Hz; simpl;
    repeat split; try apply Qeq_bool_iff;
    try exact Hreq; try (rewrite Hzero; ring);
    try (rewrite Hreq, Hzero; ring).
Qed.

Lemma calculate_zero_expenses_witness :
  exists r : CalculatorResult,
    calculate
      {| annualIncome := Fin 100000; annualMedicalExpenses := Fin 0;
         province := "ON"; adminFeeRate := Fin 0.08;
         annualPlanFee := Fin 120 |}
    = Returns r
    /\ (adminFee r ==? 0) = true
    /\ (totalBusinessCost r ==? Fin 120) = true
    /\ (requiredPersonalIncome r ==? 0) = true
    /\ (savings r ==? Fin (- 120)) = true.
Proof.
  apply (calculate_zero_expenses (Fin 100000) "ON" ontario
           0 0.08 (Fin 120));
    reflexivity.
Defined.

(** ** Unvalidated fees *)



(** ** The break-even expense *)





(** * Further properties of the engine *)

(** X1.  Whatever the income ([NaN] included), a rate [marginalRate]
    returns is the rate of one of the brackets of the table. *)
Theorem marginalRate_from_table (income r : number)
    (brackets : list TaxBracket) :
  marginalRate income brackets = Returns r ->
  exists b : TaxBracket, In b brackets /\ rate b = r.
Proof.
  intros H. apply marginalRate_in in H.
  apply in_map_iff in H as (b & Hb & Hin). now exists b.
Qed.

Lemma marginalRate_from_table_witness :
  exists b : TaxBracket,
    In b FEDERAL_TAX_BRACKETS /\ rate b = Fin 0.33.
Proof.
  apply (marginalRate_from_table NaN (Fin 0.33) FEDERAL_TAX_BRACKETS).
  reflexivity.
Defined.

(** X2.  [marginalRate] throws, a [TypeError], exactly on the empty table,
    whatever the income; [effectiveTaxRate] on the empty table throws
    nothing and is 0 at every finite income. *)
Theorem empty_table (income : number) (brackets : list TaxBracket) :
  (marginalRate income brackets = Throws TypeError <-> brackets = [])
  /\ ((exists e, marginalRate income brackets = Throws e) <-> brackets = [])
  /\ forall x : Q, (effectiveTaxRate (Fin x) [] ==? 0) = true.
Proof.
  assert (Hiff : forall e, marginalRate income brackets = Throws e ->
                           brackets = []).
  { intros e He. destruct brackets as [|b rest]; [reflexivity|].
    destruct (marginalRate_returns income (b :: rest)) as [r Hr];
      [discriminate|]. rewrite Hr in He. discriminate. }
  split; [|split].
  - split; [apply Hiff|]. now intros ->.
  - split; [intros [e He]; now apply (Hiff e)|].
    intros ->. now exists TypeError.
  - intros x. unfold effectiveTaxRate.
    destruct (Fin x <=? 0) eqn:Hx; [reflexivity|].
    simpl in Hx. apply Qle_bool_false_iff in Hx.
    cbn [effectiveTaxRate_loop]. simpl.
    assert (Hnz : Qeq_bool x 0 = false)
      by (apply Qeq_bool_false_iff; lra).
    rewrite Hnz. simpl. apply Qeq_bool_iff. field. lra.
Qed.

Lemma table_invariant_parts (table : list TaxBracket) :
  table_invariant table = true ->
  thresholds_increasing table = true
  /\ rates_non_decreasing table = true
  /\ last_unbounded table = true.
Proof.
  unfold table_invariant. intros H.
  apply andb_true_iff in H as [H Hlast].
  apply andb_true_iff in H as [Hthr Hrates]. auto.
Qed.

(** * Further properties of the comparison *)

(** At an income [> 0] and a registered province the two marginal rates
    are fixed, and they give the result of every call on finite expenses
    [>= 0] and finite fees. *)
Lemma compiled_calculate_all (income : number) (k : string) (p : Province) :
  (income >? 0) = true ->
  lookup k PROVINCES = Some p ->
  exists (rf rp : number) (m : Q),
    (0 < m)%Q /\ (m < 1)%Q
    /\ marginalFederalTaxRate income = Returns rf
    /\ marginalProvincialTaxRate income p = Returns rp
    /\ rf + rp = Fin m
    /\ forall expenses fee plan : Q,
         (0 <= expenses)%Q ->
         calculate
           {| annualIncome := income; annualMedicalExpenses := Fin expenses;
              province := k; adminFeeRate := Fin fee;
              annualPlanFee := Fin plan |}
         = Returns
             {| adminFee := Fin (expenses * fee);
                totalBusinessCost := Fin (expenses + expenses * fee + plan);
                requiredPersonalIncome := Fin (expenses / (1 + - m));
                savings :=
                  Fin (expenses / (1 + - m)
                       + - (expenses + expenses * fee + plan));
                marginalTaxRate := Fin m;
                federalTaxRate := rf;
                provincialTaxRate := rp;
                annualPlanFee' := Fin plan;
                breakEven := Fin (plan * (1 + - m) / m) |}.
Proof.
  intros Hincome Hp.
  pose proof (positive_not_leb _ Hincome) as Hnot.
  destruct (marginalRate_returns income FEDERAL_TAX_BRACKETS FEDERAL_nonempty)
    as [rf Hrf].
  destruct (marginalRate_returns income (taxBrackets p)
              (PROVINCES_nonempty _ _ Hp)) as [rp Hrp].
  destruct (compiled_rates_proper _ _ _ _ _ Hp Hrf Hrp)
    as (m & Hm & Hlo & Hhi).
  exists rf, rp, m. repeat split; try assumption.
  intros expenses fee plan Hexp.
  rewrite <- (comparison_of_finite income k expenses fee plan m rf rp)
    by (assumption || lra).
  apply (calculate_returns FEDERAL_TAX_BRACKETS PROVINCES _ p rf rp);
    try assumption.
  simpl. now apply Qltb_false_iff.
Qed.

Lemma PROVINCES_sound (k : string) (p : Province) :
  lookup k PROVINCES = Some p ->
  table_invariant (taxBrackets p) = true
  /\ finite_rates (taxBrackets p) = true
  /\ starts_at_zero (taxBrackets p) = true.
Proof.
  intros H. apply lookup_in in H.
  assert (Hall : Forall (fun q => table_invariant (taxBrackets q) = true
                                  /\ finite_rates (taxBrackets q) = true
                                  /\ starts_at_zero (taxBrackets q) = true)
                   (map snd PROVINCES))
    by (repeat constructor).
  rewrite Forall_forall in Hall. now apply Hall.
Qed.

Lemma add_finite (x y : number) (m : Q) :
  x + y = Fin m -> exists a b : Q, x = Fin a /\ y = Fin b /\ m = (a + b)%Q.
Proof.
  destruct x as [| |a|], y as [| |b|]; try discriminate.
  intros [= <-]. now exists a, b.
Qed.

Lemma positive_leb (a b : number) :
  (a >? 0) = true -> (a <=? b) = true -> (b >? 0) = true.
Proof.
  destruct a as [| |a|], b as [| |b|]; try discriminate; try reflexivity.
  unfold Num.gtb. simpl. rewrite !Qltb_iff, Qle_bool_iff. lra.
Qed.

(** X9.  With the compiled-in tables a higher income never lowers the
    combined marginal rate, nor the personal income required for the same
    expenses: for incomes [0 < a <= b], a registered province and finite
    expenses [>= 0], both calls return, and the marginal rate and the
    required personal income at [a] are [<=] those at [b]. *)
Theorem calculate_monotone_in_income (a b : number) (k : string)
    (p : Province) (expenses fee plan : Q) :
  (a >? 0) = true -> (a <=? b) = true -> (0 <= expenses)%Q ->
  lookup k PROVINCES = Some p ->
  exists ra rb : CalculatorResult,
    calculate
      {| annualIncome := a; annualMedicalExpenses := Fin expenses;
         province := k; adminFeeRate := Fin fee; annualPlanFee := Fin plan |}
    = Returns ra
    /\ calculate
         {| annualIncome := b; annualMedicalExpenses := Fin expenses;
            province := k; adminFeeRate := Fin fee;
            annualPlanFee := Fin plan |}
       = Returns rb
    /\ (marginalTaxRate ra <=? marginalTaxRate rb) = true
    /\ (requiredPersonalIncome ra <=? requiredPersonalIncome rb) = true.
Proof.
  intros Ha Hab Hexp Hp.
  pose proof (positive_leb a b Ha Hab) as Hb.
  destruct (compiled_calculate_all a k p Ha Hp)
    as (fa & pa & ma & Hloa & Hhia & Hfa & Hpa & Hma & Halla).
  destruct (compiled_calculate_all b k p Hb Hp)
    as (fb & pb & mb & Hlob & Hhib & Hfb & Hpb & Hmb & Hallb).
  destruct (PROVINCES_sound k p Hp) as (Hinv & Hfin & _).
  apply table_invariant_parts in Hinv as (_ & Hrates & _).
  destruct (marginalRate_monotone_aux a b Hab FEDERAL_TAX_BRACKETS)
    as (fa' & fb' & Hfa' & Hfb' & Hfle);
    try solve [reflexivity | discriminate].
  destruct (marginalRate_monotone_aux a b Hab (taxBrackets p))
    as (pa' & pb' & Hpa' & Hpb' & Hple);
    try assumption; [now apply (PROVINCES_nonempty k)|].
  unfold marginalFederalTaxRate, Engine.marginalFederalTaxRate in Hfa, Hfb.
  unfold marginalProvincialTaxRate in Hpa, Hpb.
  rewrite Hfa in Hfa'. injection Hfa' as <-.
  rewrite Hfb in Hfb'. injection Hfb' as <-.
  rewrite Hpa in Hpa'. injection Hpa' as <-.
  rewrite Hpb in Hpb'. injection Hpb' as <-.
  destruct (add_finite _ _ _ Hma) as (x & y & -> & -> & Hxy).
  destruct (add_finite _ _ _ Hmb) as (x' & y' & -> & -> & Hxy').
  simpl in Hfle, Hple. apply Qle_bool_iff in Hfle, Hple.
  assert (Hm : (ma <= mb)%Q) by (subst ma mb; lra).
  eexists. eexists.
  split; [exact (Halla expenses fee plan Hexp)|].
  split; [exact (Hallb expenses fee plan Hexp)|].
  cbn [marginalTaxRate requiredPersonalIncome]. simpl.
  split; apply Qle_bool_iff; [exact Hm|].
  apply Qle_shift_div_r; [lra|].
  setoid_replace (expenses / (1 + - mb) * (1 + - ma))%Q
    with (expenses * (1 + - ma) / (1 + - mb))%Q by (field; lra).
  apply Qle_shift_div_l; [lra|].
  assert (expenses * (1 + - mb) <= expenses * (1 + - ma))%Q; [|lra].
  rewrite (Qmult_comm expenses (1 + - mb)), (Qmult_comm expenses (1 + - ma)).
  apply Qmult_le_compat_r; lra.
Qed.

Lemma calculate_monotone_in_income_witness :
  exists ra rb : CalculatorResult,
    calculate
      {| annualIncome := Fin 40000; annualMedicalExpenses := Fin 3000;
         province := "ON"; adminFeeRate := Fin 0.08;
         annualPlanFee := Fin 120 |}
    = Returns ra
    /\ calculate ontario_example = Returns rb
    /\ (marginalTaxRate ra <=? marginalTaxRate rb) = true
    /\ (requiredPersonalIncome ra <=? requiredPersonalIncome rb) = true.
Proof.
  apply (calculate_monotone_in_income (Fin 40000) (Fin 100000) "ON" ontario
           3000 0.08 120);
    solve [reflexivity | discriminate].
Defined.

Lemma lookup_includes (k : string) (provinces : list (string * Province)) :
  existsb (String.eqb k) (map fst provinces) = true <->
  exists p, lookup k provinces = Some p.
Proof.
  induction provinces as [|[k' p'] rest IH]; simpl.
  - split; [discriminate|]. intros [p Hp]. discriminate.
  - destruct (String.eqb k k'); simpl.
    + split; [|reflexivity]. intros _. now exists p'.
    + exact IH.
Qed.

(** ** An income that is not a number *)

Lemma effectiveTaxRate_loop_nan (brackets : list TaxBracket) :
  forall totalTax previousThreshold : number,
    effectiveTaxRate_loop NaN brackets totalTax previousThreshold = totalTax.
Proof.
  induction brackets as [|b rest IH]; intros totalTax previousThreshold;
    [reflexivity|].
  rewrite effectiveTaxRate_loop_cons. simpl.
  destruct previousThreshold; simpl; apply IH.
Qed.

(** X12.  [calculate] does not reject an income that is [NaN]: its checks
    pass, both marginal rates are those of the last brackets (0.33 for the
    federal table), and the call returns.  On any table [effectiveTaxRate]
    is [NaN] at a [NaN] income, and [marginalRate] returns the rate of the
    last bracket. *)
Theorem nan_income :
  (forall brackets : list TaxBracket, effectiveTaxRate NaN brackets = NaN)
  /\ (forall (brackets : list TaxBracket) (d : TaxBracket),
        brackets <> [] ->
        marginalRate NaN brackets = Returns (rate (last brackets d)))
  /\ (forall (k : string) (p : Province) (d : TaxBracket)
             (expenses fee plan : number),
        (expenses <? 0) = false ->
        lookup k PROVINCES = Some p ->
        exists r : CalculatorResult,
          calculate
            {| annualIncome := NaN; annualMedicalExpenses := expenses;
               province := k; adminFeeRate := fee; annualPlanFee := plan |}
          = Returns r
          /\ federalTaxRate r = Fin 0.33
          /\ provincialTaxRate r = rate (last (taxBrackets p) d)).
Proof.
  assert (Hlast : forall (brackets : list TaxBracket) (d : TaxBracket),
             brackets <> [] ->
             marginalRate NaN brackets = Returns (rate (last brackets d))).
  { intros brackets d Hne. unfold marginalRate.
    rewrite marginalRate_loop_none; [now apply last_rate_last|].
    apply Forall_forall. reflexivity. }
  split; [|split].
  - intros brackets. unfold effectiveTaxRate. simpl.
    now rewrite effectiveTaxRate_loop_nan.
  - exact Hlast.
  - intros k p d expenses fee plan Hexp Hp.
    eexists. split.
    + apply (calculate_returns FEDERAL_TAX_BRACKETS PROVINCES _ p
               (Fin 0.33) (rate (last (taxBrackets p) d)));
        [reflexivity | exact Hexp | exact Hp | reflexivity |].
      apply (Hlast (taxBrackets p) d). now apply (PROVINCES_nonempty k).
    + split; reflexivity.
Qed.

Lemma nan_income_witness :
  exists r : CalculatorResult,
    calculate
      {| annualIncome := NaN; annualMedicalExpenses := Fin 3000;
         province := "ON"; adminFeeRate := Fin 0.08;
         annualPlanFee := Fin 120 |}
    = Returns r
    /\ federalTaxRate r = Fin 0.33
    /\ provincialTaxRate r = Fin 0.1316.
Proof.
  destruct nan_income as (_ & _ & Hcalc).
  apply (Hcalc "ON" ontario (bracket 0 0) (Fin 3000) (Fin 0.08) (Fin 120));
    reflexivity.
Defined.

(** * Properties of the command line *)

Lemma checked_positive (x : number) :
  Cli.isNaN x || (x <=? 0) = false -> (x >? 0) = true.
Proof.
  destruct x as [| |a|]; try discriminate; [|reflexivity].
  unfold Num.gtb. simpl. rewrite Qle_bool_false_iff, Qltb_iff. tauto.
Qed.

Lemma checked_non_negative (x : number) :
  Cli.isNaN x || (x <? 0) = false -> (0 <=? x) = true.
Proof.
  destruct x as [| |a|]; try discriminate; [|reflexivity].
  simpl. rewrite Qltb_false_iff, Qle_bool_iff. tauto.
Qed.

Section CliFacts.

Variable parseFloat : string -> number.
Variable toUpperCase : string -> string.

Local Abbreviation main := (Cli.main parseFloat toUpperCase).
Local Abbreviation parse_options := (Cli.parse_options parseFloat).

(** What [main] has checked when it calls [calculate]. *)
Lemma main_calls (args : list string) (input : CalculatorInput)
    (json : bool) :
  main args = Cli.Calls input json ->
  exists (p0 p1 p2 : string) (rest : list string),
    filter (fun a => negb (Cli.startsWith a "--")) args
    = p0 :: p1 :: p2 :: rest
    /\ Cli.isNaN (parseFloat p0) || (parseFloat p0 <=? 0) = false
    /\ Cli.isNaN (parseFloat p1) || (parseFloat p1 <? 0) = false
    /\ Cli.includes Cli.VALID_PROVINCES (toUpperCase p2) = true
    /\ input
       = {| annualIncome := parseFloat p0;
            annualMedicalExpenses := parseFloat p1;
            province := toUpperCase p2;
            adminFeeRate :=
              fst (fst (parse_options args (Fin 0.08) (Fin 120) false));
            annualPlanFee :=
              snd (fst (parse_options args (Fin 0.08) (Fin 120) false)) |}
    /\ json = snd (parse_options args (Fin 0.08) (Fin 120) false).
Proof.
  unfold Cli.main.
  destruct (_ || _ || _); [discriminate|].
  destruct (filter _ args) as [|p0 [|p1 [|p2 rest]]]; try discriminate.
  destruct (Cli.isNaN (parseFloat p0) || (parseFloat p0 <=? 0)) eqn:H0;
    [discriminate|].
  destruct (Cli.isNaN (parseFloat p1) || (parseFloat p1 <? 0)) eqn:H1;
    [discriminate|].
  destruct (Cli.includes Cli.VALID_PROVINCES (toUpperCase p2)) eqn:H2;
    [|discriminate].
  cbn [negb].
  destruct (parse_options args (Fin 0.08) (Fin 120) false) as [[f pl] j].
  intros [= <- <-]. exists p0, p1, p2, rest. repeat split; assumption.
Qed.

(** X13.  When [main] calls [calculate], the income is a number [> 0], the
    expenses are a number [>= 0] and the province is a key of [PROVINCES]:
    the call returns, it never throws. *)
Theorem main_call_returns (args : list string) (input : CalculatorInput)
    (json : bool) :
  main args = Cli.Calls input json ->
  (annualIncome input >? 0) = true
  /\ (0 <=? annualMedicalExpenses input) = true
  /\ In (province input) Cli.VALID_PROVINCES
  /\ exists r : CalculatorResult, calculate input = Returns r.
Proof.
  intros H.
  destruct (main_calls _ _ _ H) as (p0 & p1 & p2 & rest & _ & H0 & H1 & H2
                                    & -> & _).
  cbn [annualIncome annualMedicalExpenses province].
  pose proof (checked_positive _ H0) as Hincome.
  pose proof (checked_non_negative _ H1) as Hexp.
  pose proof H2 as Hkey. apply lookup_includes in Hkey as [p Hp].
  repeat split; try assumption.
  - unfold Cli.includes in H2. apply existsb_exists in H2 as (x & Hx & Hk).
    apply String.eqb_eq in Hk. now subst.
  - destruct (calculate_total FEDERAL_TAX_BRACKETS PROVINCES
                {| annualIncome := parseFloat p0;
                   annualMedicalExpenses := parseFloat p1;
                   province := toUpperCase p2;
                   adminFeeRate :=
                     fst (fst (parse_options args (Fin 0.08) (Fin 120)
                                 false));
                   annualPlanFee :=
                     snd (fst (parse_options args (Fin 0.08) (Fin 120)
                                 false)) |} p)
      as (rf & rp & _ & _ & Hr);
      try assumption.
    + exact FEDERAL_nonempty.
    + now apply (PROVINCES_nonempty (toUpperCase p2)).
    + now apply positive_not_leb.
    + now apply non_negative_not_ltb.
    + eexists. exact Hr.
Qed.

Lemma parse_options_none (args : list string) :
  forall (fee plan : number) (json : bool),
    no_options args = true ->
    parse_options args fee plan json = (fee, plan, json).
Proof.
  induction args as [|arg rest IH]; intros fee plan json Hnone;
    [reflexivity|].
  cbn [no_options forallb] in Hnone.
  apply andb_true_iff in Hnone as [Harg Hrest].
  apply andb_true_iff in Harg as [Harg Hjson].
  apply andb_true_iff in Harg as [Hfee Hplan].
  apply negb_true_iff in Hfee, Hplan, Hjson.
  cbn [Cli.parse_options]. rewrite Hfee, Hplan, Hjson. cbn [andb].
  destruct rest as [|value rest']; [reflexivity|].
  now apply IH.
Qed.

(** X14.  Without any of the options [--admin-fee], [--plan-fee] and
    [--json] among its arguments, [main] calls [calculate] with an admin
    fee rate of 0.08 and a plan fee of 120, and does not ask for JSON. *)
Theorem main_defaults (args : list string) (input : CalculatorInput)
    (json : bool) :
  main args = Cli.Calls input json ->
  no_options args = true ->
  adminFeeRate input = Fin 0.08
  /\ annualPlanFee input = Fin 120
  /\ json = false.
Proof.
  intros H Hnone.
  destruct (main_calls _ _ _ H) as (p0 & p1 & p2 & rest & _ & _ & _ & _
                                    & -> & ->).
  rewrite (parse_options_none args _ _ _ Hnone). repeat split.
Qed.

(** X15.  The value of an option is also a positional argument: when
    [--plan-fee v] comes first, with [v] not empty and not starting with
    [--], and no option follows, a run that calls [calculate] passes
    [parseFloat v] both as the plan fee and as the income, and the next two
    positional arguments as the expenses and the province. *)
Theorem main_option_value_is_positional (v : string) (rest : list string)
    (input : CalculatorInput) (json : bool) :
  main ("--plan-fee" :: v :: rest) = Cli.Calls input json ->
  Cli.truthy v = true ->
  Cli.startsWith v "--" = false ->
  no_options rest = true ->
  annualPlanFee input = parseFloat v
  /\ annualIncome input = parseFloat v
  /\ exists (p1 p2 : string) (more : list string),
       filter (fun a => negb (Cli.startsWith a "--")) rest
       = p1 :: p2 :: more
       /\ annualMedicalExpenses input = parseFloat p1
       /\ province input = toUpperCase p2.
Proof.
  intros H Hv Hstart Hnone.
  destruct (main_calls _ _ _ H) as (p0 & p1 & p2 & more & Hpos & _ & _ & _
                                    & -> & _).
  cbn [filter] in Hpos. rewrite Hstart in Hpos.
  change (Cli.startsWith "--plan-fee" "--") with true in Hpos.
  cbn [negb] in Hpos. injection Hpos as <- Hpos.
  cbn [annualPlanFee annualIncome annualMedicalExpenses province].
  cbn [Cli.parse_options]. rewrite Hv.
  change (String.eqb "--plan-fee" "--admin-fee") with false.
  change (String.eqb "--plan-fee" "--plan-fee") with true.
  cbn [andb]. rewrite (parse_options_none rest _ _ _ Hnone).
  repeat split. now exists p1, p2, more.
Qed.

Lemma parse_options_app (before args : list string) :
  forall (fee plan : number) (json : bool),
    no_options before = true ->
    parse_options (before ++ args) fee plan json
    = parse_options args fee plan json.
Proof.
  induction before as [|arg rest IH]; intros fee plan json Hnone;
    [reflexivity|].
  cbn [no_options forallb] in Hnone.
  apply andb_true_iff in Hnone as [Harg Hrest].
  apply andb_true_iff in Harg as [Harg Hjson].
  apply andb_true_iff in Harg as [Hfee Hplan].
  apply negb_true_iff in Hfee, Hplan, Hjson.
  specialize (IH fee plan json Hrest).
  change ((arg :: rest) ++ args) with (arg :: (rest ++ args)).
  cbn [Cli.parse_options]. rewrite Hfee, Hplan, Hjson. cbn [andb].
  destruct (rest ++ args) as [|value rest'] eqn:Happ.
  - destruct args; [reflexivity|]. now destruct rest.
  - exact IH.
Qed.

(** X16.  [--admin-fee] is a percentage and takes the next argument as its
    value whatever it is: when the arguments end with [--admin-fee v], [v]
    not empty, after arguments that are no options, a run that calls
    [calculate] passes [parseFloat v / 100] as the admin fee rate and 120
    as the plan fee, and does not ask for JSON, even if [v] is [--json]. *)
Theorem main_admin_fee_percent (before : list string) (v : string)
    (input : CalculatorInput) (json : bool) :
  main (before ++ ["--admin-fee"; v]) = Cli.Calls input json ->
  no_options before = true ->
  Cli.truthy v = true ->
  adminFeeRate input = parseFloat v / Fin 100
  /\ annualPlanFee input = Fin 120
  /\ json = false.
Proof.
  intros H Hnone Hv.
  destruct (main_calls _ _ _ H) as (p0 & p1 & p2 & rest & _ & _ & _ & _
                                    & -> & ->).
  rewrite (parse_options_app before _ _ _ _ Hnone).
  cbn [Cli.parse_options]. rewrite Hv.
  change (String.eqb "--admin-fee" "--admin-fee") with true.
  cbn [andb]. repeat split.
Qed.

End CliFacts.

Lemma main_call_returns_witness :
  exists r : CalculatorResult,
    calculate
      {| annualIncome := Fin 100000; annualMedicalExpenses := Fin 3000;
         province := "ON"; adminFeeRate := Fin (5 / 100);
         annualPlanFee := Fin 120 |}
    = Returns r.
Proof.
  apply (main_call_returns Cli.sample_parseFloat Cli.sample_toUpperCase
           ["100000"; "3000"; "on"; "--admin-fee"; "5"] _ false).
  reflexivity.
Defined.

Lemma main_defaults_witness :
  exists input : CalculatorInput,
    Cli.main Cli.sample_parseFloat Cli.sample_toUpperCase
      ["100000"; "3000"; "on"]
    = Cli.Calls input false
    /\ adminFeeRate input = Fin 0.08
    /\ annualPlanFee input = Fin 120.
Proof.
  eexists. split; [reflexivity|].
  destruct (main_defaults Cli.sample_parseFloat Cli.sample_toUpperCase
              ["100000"; "3000"; "on"]
              {| annualIncome := Fin 100000;
                 annualMedicalExpenses := Fin 3000;
                 province := "ON"; adminFeeRate := Fin 0.08;
                 annualPlanFee := Fin 120 |} false)
    as (Hfee & Hplan & _); try reflexivity.
  split; assumption.
Defined.

Lemma main_option_value_is_positional_witness :
  exists input : CalculatorInput,
    Cli.main Cli.sample_parseFloat Cli.sample_toUpperCase
      ["--plan-fee"; "5"; "100000"; "on"]
    = Cli.Calls input false
    /\ annualPlanFee input = Fin 5
    /\ annualIncome input = Fin 5
    /\ annualMedicalExpenses input = Fin 100000
    /\ province input = "ON".
Proof.
  eexists. split; [reflexivity|].
  destruct (main_option_value_is_positional
              Cli.sample_parseFloat Cli.sample_toUpperCase
              "5" ["100000"; "on"]
              {| annualIncome := Fin 5; annualMedicalExpenses := Fin 100000;
                 province := "ON"; adminFeeRate := Fin 0.08;
                 annualPlanFee := Fin 5 |} false)
    as (Hplan & Hincome & _); try reflexivity.
  repeat split; assumption.
Defined.

Lemma main_admin_fee_percent_witness :
  exists input : CalculatorInput,
    Cli.main Cli.sample_parseFloat Cli.sample_toUpperCase
      ["100000"; "3000"; "on"; "--admin-fee"; "5"]
    = Cli.Calls input false
    /\ adminFeeRate input = Fin 5 / Fin 100
    /\ annualPlanFee input = Fin 120.
Proof.
  eexists. split; [reflexivity|].
  destruct (main_admin_fee_percent
              Cli.sample_parseFloat Cli.sample_toUpperCase
              ["100000"; "3000"; "on"] "5"
              {| annualIncome := Fin 100000;
                 annualMedicalExpenses := Fin 3000;
                 province := "ON"; adminFeeRate := Fin 5 / Fin 100;
                 annualPlanFee := Fin 120 |} false)
    as (Hfee & Hplan & _); try reflexivity.
  split; assumption.
Defined.
